(** * GatewayService (api/src/gateway/gateway.service.ts)

    A shallow embedding of the SMS gateway service: the device registry
    lookups, the single and bulk dispatch paths, the inbound recorder, the
    per-user statistics and the recipient preview.

    The service talks to injected collaborators: the billing service, the
    two message collections, the push transport and the auth service.
    Their answers are taken from an environment [Env]; every call to one
    of the first four is recorded, with its outcome, in the [calls] log of
    the [World], so that the order of checks and side effects can be
    stated.  Exceptions do not roll the world back: whatever was persisted
    before a [throw] stays persisted.  Numbers are integers throughout. *)

From Stdlib Require Import String List ZArith Lia Bool Arith DecimalString.
Import ListNotations.
Open Scope string_scope.

(** ** Run-time values *)

(** A JavaScript [Date]: a time value in epoch milliseconds, or the invalid
    date that [new Date(n)] yields outside the representable range. *)
Inductive JsDate : Type :=
| ValidDate (t : Z)
| InvalidDate.

Definition maxTimeValue : Z := 8640000000000000.

(** [new Date(ms)] for an integral number of milliseconds. *)
Definition newDate (ms : Z) : JsDate :=
  if (Z.abs ms <=? maxTimeValue)%Z then ValidDate ms else InvalidDate.

(** What a [recipients] / [receivers] field holds at run time.  The DTO
    declares [string[]]; the service itself re-checks with [Array.isArray],
    so the field may be absent ([undefined] or [null]) or hold a value that
    is not an array (here: a string, which still has a [length]). *)
Inductive JsRecipients : Type :=
| Absent
| StringValue (s : string)
| ArrayValue (l : list string).

(** JavaScript truthiness. *)
Definition truthyString (s : option string) : bool :=
  match s with
  | Some s => negb (s =? "")
  | None => false
  end.

Definition truthyRecipients (r : JsRecipients) : bool :=
  match r with
  | Absent => false
  | StringValue s => negb (s =? "")
  | ArrayValue _ => true
  end.

Definition truthyNumber (n : option Z) : bool :=
  match n with
  | Some n => negb (n =? 0)%Z
  | None => false
  end.

(** [a || b] at the two types it is used at. *)
Definition orString (a b : option string) : option string :=
  if truthyString a then a else b.

Definition orRecipients (a b : JsRecipients) : JsRecipients :=
  if truthyRecipients a then a else b.

(** [x || 0] on an optional counter. *)
Definition orZero (n : option Z) : Z :=
  match n with
  | Some n => if (n =? 0)%Z then 0%Z else n
  | None => 0%Z
  end.

(** [r.length]; [None] stands for the TypeError raised when [r] is
    [undefined] or [null]. *)
Definition lengthOf (r : JsRecipients) : option nat :=
  match r with
  | Absent => None
  | StringValue s => Some (String.length s)
  | ArrayValue l => Some (List.length l)
  end.

Definition isArray (r : JsRecipients) : bool :=
  match r with
  | ArrayValue _ => true
  | _ => false
  end.

(** The number [n] inside a template literal. *)
Definition numberToString (n : nat) : string :=
  NilZero.string_of_uint (Nat.to_uint n).

(** ** Documents *)

Record Device : Type := mkDevice {
  dev_id : string;
  dev_user : string;
  enabled : bool;
  fcmToken : string;
  sentSMSCount : option Z;
  receivedSMSCount : option Z
}.

Inductive SMSType : Type := SENT | RECEIVED.

(** Argument of [smsModel.create]. *)
Record SMSInput : Type := mkSMSInput {
  sms_device : string;
  sms_smsBatch : option nat;
  sms_message : string;
  sms_type : SMSType;
  sms_recipient : option string;
  sms_sender : option string;
  sms_requestedAt : option JsDate;
  sms_receivedAt : option JsDate
}.

Record SMS : Type := mkSMS {
  sms_id : nat;
  sms_doc : SMSInput
}.

(** Argument of [smsBatchModel.create]. *)
Record SMSBatchInput : Type := mkSMSBatchInput {
  batch_device : string;
  batch_message : option string;
  batch_recipientCount : nat;
  batch_recipientPreview : option string
}.

Record SMSBatch : Type := mkSMSBatch {
  batch_id : nat;
  batch_doc : SMSBatchInput
}.

(** ** Requests *)

Record SendSMSInputDTO : Type := mkSendSMSInputDTO {
  dto_message : option string;
  dto_smsBody : option string;
  dto_recipients : JsRecipients;
  dto_receivers : JsRecipients
}.

(** [messages] is [None] when the field is missing from the body. *)
Record SendBulkSMSInputDTO : Type := mkSendBulkSMSInputDTO {
  messageTemplate : option string;
  messages : option (list SendSMSInputDTO)
}.

Record ReceivedSMSDTO : Type := mkReceivedSMSDTO {
  rcv_message : option string;
  rcv_sender : option string;
  rcv_receivedAt : option JsDate;
  rcv_receivedAtInMillis : option Z
}.

Record User : Type := mkUser { user_id : string }.

(** ** The push transport *)

(** The object that is stringified into [data.smsData]. *)
Record SMSData : Type := mkSMSData {
  smsId : nat;
  smsBatchId : nat;
  data_message : string;
  data_recipients : list string;
  data_smsBody : string;
  data_receivers : list string
}.

Record Message : Type := mkMessage {
  data : SMSData;
  token : string;
  android_priority : string
}.

Record SendResponse : Type := mkSendResponse {
  success : bool;
  messageId : option string
}.

Record BatchResponse : Type := mkBatchResponse {
  responses : list SendResponse;
  successCount : Z;
  failureCount : Z
}.

(** ** Exceptions *)

(** An error raised by a collaborator, kept opaque. *)
Definition Cause : Type := string.

Inductive HttpStatus : Type := BAD_REQUEST | NOT_FOUND.

(** What travels up the call stack: an [HttpException] built by this
    service, the TypeError of a property read on [undefined], or whatever a
    collaborator raised. *)
Inductive Exn : Type :=
| HttpException (response : HttpBody) (status : HttpStatus)
| TypeError
| Thrown (c : Cause)
with HttpBody : Type :=
| Body (success : option bool) (error : string) (additionalInfo : Info)
with Info : Type :=
| NoInfo
| InfoResponse (r : BatchResponse)
| InfoError (e : Exn).

Definition failure (error : string) (additionalInfo : Info) : Exn :=
  HttpException (Body (Some false) error additionalInfo) BAD_REQUEST.

(** The exceptions the service constructs, by throw site. *)
Definition deviceNotFound : Exn :=
  HttpException (Body None "Device not found" NoInfo) NOT_FOUND.
Definition deviceNotEnabled : Exn :=
  failure "Device does not exist or is not enabled" NoInfo.
Definition messageBlank : Exn :=
  failure "Message cannot be blank" NoInfo.
Definition invalidRecipients : Exn :=
  failure "Invalid recipients" NoInfo.
Definition failedToCreateBatch (e : Exn) : Exn :=
  failure "Failed to create SMS batch" (InfoError e).
Definition failedToSend (additionalInfo : Info) : Exn :=
  failure "Failed to send SMS" additionalInfo.
Definition invalidMessageList : Exn :=
  failure "Invalid message list" NoInfo.
Definition tooManyRecipients : Exn :=
  failure "Maximum of 50 recipients per batch is allowed" NoInfo.
Definition deviceDoesNotExist : Exn :=
  failure "Device does not exist" NoInfo.
Definition invalidReceivedData : Exn :=
  failure "Invalid received SMS data" NoInfo.

(** ** The world *)

Inductive Action : Type := send_sms | bulk_send_sms | receive_sms.

Inductive Counter : Type := SentSMSCount | ReceivedSMSCount.

(** A detached [findByIdAndUpdate(deviceId, {$inc: ...})]: started, not
    awaited, its failure only logged. *)
Record CounterInc : Type := mkCounterInc {
  inc_device : string;
  inc_counter : Counter;
  inc_by : Z
}.

Inductive WebhookEvent : Type := MESSAGE_RECEIVED.

(** A detached [webhookService.deliverNotification]. *)
Record Notification : Type := mkNotification {
  note_sms : SMS;
  note_user : string;
  note_event : WebhookEvent
}.

(** One call to a collaborator, with what came back. *)
Inductive Call : Type :=
| CanPerformAction (user : string) (action : Action) (count : nat)
                   (outcome : option Cause)
| SmsBatchCreate (doc : SMSBatchInput) (outcome : option Cause)
| SmsCreate (doc : SMSInput) (outcome : option Cause)
| SendEach (msgs : list Message) (outcome : Cause + BatchResponse).

(** The three collections, the id the next inserted document gets, the
    time [new Date()] reads, the detached tasks started so far and the
    call log. *)
Record World : Type := mkWorld {
  devices : list Device;
  smsCollection : list SMS;
  smsBatchCollection : list SMSBatch;
  nextId : nat;
  clock : Z;
  detached : list CounterInc;
  notifications : list Notification;
  calls : list Call
}.

(** The collaborators' behaviour, as functions of what they are called
    with: [Some c] and [inl c] are a rejection with cause [c], [None] and
    [inr] a normal return. *)
Record Env : Type := mkEnv {
  canPerformAction : string -> Action -> nat -> option Cause;
  smsBatchCreateError : SMSBatchInput -> option Cause;
  smsCreateError : SMSInput -> option Cause;
  sendEach : list Message -> Cause + BatchResponse;
  getUserApiKeys : User -> list string
}.

(** ** A state monad with exceptions *)

Inductive Result (A : Type) : Type :=
| Ok (a : A)
| Throw (e : Exn).
Arguments Ok {A} a.
Arguments Throw {A} e.

Definition M (A : Type) : Type := World -> Result A * World.

Definition ret {A} (a : A) : M A := fun w => (Ok a, w).

Definition throw {A} (e : Exn) : M A := fun w => (Throw e, w).

Definition bind {A B} (m : M A) (k : A -> M B) : M B :=
  fun w =>
    match m w with
    | (Ok a, w') => k a w'
    | (Throw e, w') => (Throw e, w')
    end.

(** [try { m } catch (e) { h e }] *)
Definition tryCatch {A} (m : M A) (h : Exn -> M A) : M A :=
  fun w =>
    match m w with
    | (Ok a, w') => (Ok a, w')
    | (Throw e, w') => h e w'
    end.

Definition gets {A} (f : World -> A) : M A := fun w => (Ok (f w), w).

Definition modify (f : World -> World) : M unit := fun w => (Ok tt, f w).

Declare Scope gateway_scope.
Delimit Scope gateway_scope with gateway.
Notation "x <- m ;; k" := (bind m (fun x => k))
  (at level 61, m at next level, right associativity) : gateway_scope.
Notation "m ;; k" := (bind m (fun _ => k))
  (at level 61, right associativity) : gateway_scope.
Open Scope gateway_scope.

(** ** World updates *)

Definition logCall (c : Call) (w : World) : World :=
  mkWorld (devices w) (smsCollection w) (smsBatchCollection w) (nextId w)
          (clock w) (detached w) (notifications w) (calls w ++ [c]).

Definition insertSMS (doc : SMSInput) (w : World) : World :=
  mkWorld (devices w) (smsCollection w ++ [mkSMS (nextId w) doc])
          (smsBatchCollection w) (S (nextId w))
          (clock w) (detached w) (notifications w) (calls w).

Definition insertSMSBatch (doc : SMSBatchInput) (w : World) : World :=
  mkWorld (devices w) (smsCollection w)
          (smsBatchCollection w ++ [mkSMSBatch (nextId w) doc]) (S (nextId w))
          (clock w) (detached w) (notifications w) (calls w).

Definition detach (i : CounterInc) (w : World) : World :=
  mkWorld (devices w) (smsCollection w) (smsBatchCollection w) (nextId w)
          (clock w) (detached w ++ [i]) (notifications w) (calls w).

Definition notify (n : Notification) (w : World) : World :=
  mkWorld (devices w) (smsCollection w) (smsBatchCollection w) (nextId w)
          (clock w) (detached w) (notifications w ++ [n]) (calls w).

(** ** RecipientPreview *)

(** [getRecipientsPreview]: [None] is the [null] of the empty list. *)
Definition getRecipientsPreview (recipients : list string) : option string :=
  match recipients with
  | [] => None
  | [r0] => Some r0
  | [r0; r1] => Some (r0 ++ " and " ++ r1)
  | [r0; r1; r2] => Some (r0 ++ ", " ++ r1 ++ ", and " ++ r2)
  | r0 :: r1 :: _ =>
      Some (r0 ++ ", " ++ r1 ++ ", and "
               ++ numberToString (List.length recipients - 2) ++ " others")
  end.

(** The preview as the specification words it, case by case on the
    number of items. *)
Definition previewBySpec (recipients : list string) : option string :=
  let nth i := List.nth i recipients "" in
  match List.length recipients with
  | 0 => None
  | 1 => Some (nth 0)
  | 2 => Some (nth 0 ++ " and " ++ nth 1)
  | 3 => Some (nth 0 ++ ", " ++ nth 1 ++ ", and " ++ nth 2)
  | S (S n) => Some (nth 0 ++ ", " ++ nth 1 ++ ", and "
                           ++ numberToString n ++ " others")
  end.

(** ** The service *)

Section Gateway.

Variable E : Env.

(** *** Collaborator calls *)

Definition findById (deviceId : string) : M (option Device) :=
  gets (fun w => List.find (fun d => dev_id d =? deviceId) (devices w)).

(** [deviceModel.find({ user })] *)
Definition findByUser (user : string) : M (list Device) :=
  gets (fun w => List.filter (fun d => dev_user d =? user) (devices w)).

(** [await billingService.canPerformAction(user, action, count)] *)
Definition checkQuota (user : string) (action : Action) (count : nat)
  : M unit :=
  let outcome := canPerformAction E user action count in
  modify (logCall (CanPerformAction user action count outcome)) ;;
  match outcome with
  | None => ret tt
  | Some c => throw (Thrown c)
  end.

(** [await smsBatchModel.create(doc)] *)
Definition smsBatchCreate (doc : SMSBatchInput) : M SMSBatch :=
  let outcome := smsBatchCreateError E doc in
  modify (logCall (SmsBatchCreate doc outcome)) ;;
  match outcome with
  | None =>
      id <- gets nextId ;;
      modify (insertSMSBatch doc) ;;
      ret (mkSMSBatch id doc)
  | Some c => throw (Thrown c)
  end.

(** [await smsModel.create(doc)] *)
Definition smsCreate (doc : SMSInput) : M SMS :=
  let outcome := smsCreateError E doc in
  modify (logCall (SmsCreate doc outcome)) ;;
  match outcome with
  | None =>
      id <- gets nextId ;;
      modify (insertSMS doc) ;;
      ret (mkSMS id doc)
  | Some c => throw (Thrown c)
  end.

(** [await firebaseAdmin.messaging().sendEach(msgs)] *)
Definition sendEachCall (msgs : list Message) : M BatchResponse :=
  let outcome := sendEach E msgs in
  modify (logCall (SendEach msgs outcome)) ;;
  match outcome with
  | inr response => ret response
  | inl c => throw (Thrown c)
  end.

(** [deviceModel.findByIdAndUpdate(deviceId, {$inc}).exec().catch(log)] *)
Definition incrementCounter (deviceId : string) (c : Counter) (by_ : Z)
  : M unit :=
  modify (detach (mkCounterInc deviceId c by_)).

(** [webhookService.deliverNotification({...}).catch(log)] *)
Definition deliverNotification (sms : SMS) (user : string) (ev : WebhookEvent)
  : M unit :=
  modify (notify (mkNotification sms user ev)).

(** [new Date()] *)
Definition now : M JsDate := gets (fun w => newDate (clock w)).

(** *** deleteDevice (lines 86-100) *)

Definition deleteDevice (deviceId : string) : M unit :=
  device <- findById deviceId ;;
  match device with
  | None => throw deviceNotFound
  | Some _ => ret tt
  end.

(** *** The per-recipient loop (lines 166-199 and 308-341) *)

Definition fcmMessageFor (device : Device) (smsBatch : SMSBatch) (sms : SMS)
           (message recipient : string) : Message :=
  mkMessage
    (mkSMSData (sms_id sms) (batch_id smsBatch) message [recipient]
               message [recipient])
    (fcmToken device)
    "high".

Definition sentDoc (device : Device) (smsBatch : SMSBatch)
           (message recipient : string) (requestedAt : JsDate) : SMSInput :=
  mkSMSInput (dev_id device) (Some (batch_id smsBatch)) message SENT
             (Some recipient) None (Some requestedAt) None.

Fixpoint createUnits (device : Device) (smsBatch : SMSBatch)
         (message : string) (recipients : list string) : M (list Message) :=
  match recipients with
  | [] => ret []
  | recipient :: rest =>
      requestedAt <- now ;;
      sms <- smsCreate (sentDoc device smsBatch message recipient requestedAt) ;;
      fcmMessages <- createUnits device smsBatch message rest ;;
      ret (fcmMessageFor device smsBatch sms message recipient :: fcmMessages)
  end.

(** *** sendSMS (lines 102-237) *)

Definition sendSMS (deviceId : string) (smsData : SendSMSInputDTO)
  : M BatchResponse :=
  device <- findById deviceId ;;
  match device with
  | None => throw deviceNotEnabled
  | Some device =>
    if negb (enabled device) then throw deviceNotEnabled else
    let message := orString (dto_message smsData) (dto_smsBody smsData) in
    let recipients :=
      orRecipients (dto_recipients smsData) (dto_receivers smsData) in
    match lengthOf recipients with
    | None => throw TypeError
    | Some count =>
      checkQuota (dev_user device) send_sms count ;;
      match message with
      | None => throw messageBlank
      | Some message =>
        if message =? "" then throw messageBlank else
        match recipients with
        | Absent | StringValue _ | ArrayValue [] => throw invalidRecipients
        | ArrayValue recipients =>
          smsBatch <-
            tryCatch
              (smsBatchCreate
                 (mkSMSBatchInput (dev_id device) (Some message)
                    (List.length recipients)
                    (getRecipientsPreview recipients)))
              (fun e => throw (failedToCreateBatch e)) ;;
          fcmMessages <- createUnits device smsBatch message recipients ;;
          tryCatch
            (response <- sendEachCall fcmMessages ;;
             if (successCount response =? 0)%Z
             then throw (failedToSend (InfoResponse response))
             else
               incrementCounter deviceId SentSMSCount
                                (successCount response) ;;
               ret response)
            (fun e => throw (failedToSend (InfoError e)))
        end
      end
    end
  end.

(** *** sendBulkSMS (lines 239-379) *)

(** [messages.map((m) => m.recipients).flat()]: an array contributes its
    items, any other value stays as one item, [None] when that value is
    [undefined] or [null]. *)
Definition flatRecipients (messages : list SendSMSInputDTO)
  : list (option string) :=
  List.flat_map
    (fun m =>
       match dto_recipients m with
       | Absent => [None]
       | StringValue s => [Some s]
       | ArrayValue l => List.map Some l
       end)
    messages.

(** [messages.map((m) => m.recipients.length)]; [None] is the TypeError of
    reading [length] on an absent [recipients]. *)
Fixpoint recipientLengths (messages : list SendSMSInputDTO)
  : option (list nat) :=
  match messages with
  | [] => Some []
  | m :: rest =>
      match lengthOf (dto_recipients m), recipientLengths rest with
      | Some n, Some ns => Some (n :: ns)
      | _, _ => None
      end
  end.

(** The items of a flattened array that are strings.  Where the service
    uses it, [recipientLengths] has succeeded, so no item is absent. *)
Definition presentItems (items : list (option string)) : list string :=
  List.flat_map (fun i => match i with Some s => [s] | None => [] end) items.

Record BulkResponse : Type := mkBulkResponse {
  bulk_success : bool;
  bulk_successCount : Z;
  bulk_failureCount : Z;
  fcmResponses : list BatchResponse
}.

(** One turn of the loop over [messages] (lines 296-362); the result is
    [fcmResponses] after the turn. *)
Definition dispatchOne (deviceId : string) (device : Device)
           (smsBatch : SMSBatch) (fcmResponses : list BatchResponse)
           (smsData : SendSMSInputDTO) : M (list BatchResponse) :=
  match dto_message smsData with
  | None => ret fcmResponses
  | Some message =>
    if message =? "" then ret fcmResponses else
    match dto_recipients smsData with
    | Absent | StringValue _ | ArrayValue [] => ret fcmResponses
    | ArrayValue recipients =>
      fcmMessages <- createUnits device smsBatch message recipients ;;
      tryCatch
        (response <- sendEachCall fcmMessages ;;
         incrementCounter deviceId SentSMSCount (successCount response) ;;
         ret (fcmResponses ++ [response])%list)
        (fun _ => ret fcmResponses)
    end
  end.

Fixpoint dispatchEach (deviceId : string) (device : Device)
         (smsBatch : SMSBatch) (fcmResponses : list BatchResponse)
         (messages : list SendSMSInputDTO) : M (list BatchResponse) :=
  match messages with
  | [] => ret fcmResponses
  | smsData :: rest =>
      fcmResponses' <-
        dispatchOne deviceId device smsBatch fcmResponses smsData ;;
      dispatchEach deviceId device smsBatch fcmResponses' rest
  end.

Definition sumSuccess (rs : list BatchResponse) : Z :=
  List.fold_left (fun acc m => (acc + successCount m)%Z) rs 0%Z.

Definition sumFailure (rs : list BatchResponse) : Z :=
  List.fold_left (fun acc m => (acc + failureCount m)%Z) rs 0%Z.

Definition sendBulkSMS (deviceId : string) (body : SendBulkSMSInputDTO)
  : M BulkResponse :=
  device <- findById deviceId ;;
  match device with
  | None => throw deviceNotEnabled
  | Some device =>
    if negb (enabled device) then throw deviceNotEnabled else
    match messages body with
    | None => throw TypeError
    | Some messages =>
      let total := List.length (flatRecipients messages) in
      checkQuota (dev_user device) bulk_send_sms total ;;
      if (List.length messages =? 0)%nat || (total =? 0)%nat
      then throw invalidMessageList
      else if (50 <? total)%nat then throw tooManyRecipients
      else
        match recipientLengths messages with
        | None => throw TypeError
        | Some lengths =>
          smsBatch <-
            smsBatchCreate
              (mkSMSBatchInput (dev_id device) (messageTemplate body)
                 (List.fold_left Nat.add lengths 0%nat)
                 (getRecipientsPreview
                    (presentItems (flatRecipients messages)))) ;;
          fcmResponses <- dispatchEach deviceId device smsBatch [] messages ;;
          let successCount := sumSuccess fcmResponses in
          let failureCount := sumFailure fcmResponses in
          ret (mkBulkResponse (0 <? successCount)%Z successCount failureCount
                              fcmResponses)
        end
    end
  end.

(** *** receiveSMS (lines 381-448) *)

Definition receivedAtOf (dto : ReceivedSMSDTO) : option JsDate :=
  match rcv_receivedAtInMillis dto with
  | Some ms => if (ms =? 0)%Z then rcv_receivedAt dto else Some (newDate ms)
  | None => rcv_receivedAt dto
  end.

Definition receivedDoc (device : Device) (message sender : string)
           (receivedAt : option JsDate) : SMSInput :=
  mkSMSInput (dev_id device) None message RECEIVED None (Some sender) None
             receivedAt.

Definition receiveSMS (deviceId : string) (dto : ReceivedSMSDTO) : M SMS :=
  device <- findById deviceId ;;
  match device with
  | None => throw deviceDoesNotExist
  | Some device =>
    checkQuota (dev_user device) receive_sms 1 ;;
    match rcv_sender dto, rcv_message dto with
    | Some sender, Some message =>
      if (match rcv_receivedAt dto with Some _ => false | None => true end
          && negb (truthyNumber (rcv_receivedAtInMillis dto)))
         || (sender =? "") || (message =? "")
      then throw invalidReceivedData
      else
        sms <- smsCreate (receivedDoc device message sender
                                      (receivedAtOf dto)) ;;
        incrementCounter deviceId ReceivedSMSCount 1 ;;
        deliverNotification sms (dev_user device) MESSAGE_RECEIVED ;;
        ret sms
    | _, _ => throw invalidReceivedData
    end
  end.

(** *** getStatsForUser (lines 479-500) *)

Record Stats : Type := mkStats {
  totalSentSMSCount : Z;
  totalReceivedSMSCount : Z;
  totalDeviceCount : nat;
  totalApiKeyCount : nat
}.

Definition getStatsForUser (user : User) : M Stats :=
  devices <- findByUser (user_id user) ;;
  let apiKeys := getUserApiKeys E user in
  let totalSentSMSCount :=
    List.fold_left (fun acc device => (acc + orZero (sentSMSCount device))%Z)
                   devices 0%Z in
  let totalReceivedSMSCount :=
    List.fold_left
      (fun acc device => (acc + orZero (receivedSMSCount device))%Z)
      devices 0%Z in
  ret (mkStats totalSentSMSCount totalReceivedSMSCount
               (List.length devices) (List.length apiKeys)).

End Gateway.

(** ** Sample data *)

Module Sample.

Definition phone : Device :=
  mkDevice "d1" "u1" true "tok" (Some 4%Z) None.

Definition offPhone : Device :=
  mkDevice "d2" "u1" false "tok2" None (Some 7%Z).

Definition world : World :=
  mkWorld [phone; offPhone] [] [] 0 1700000000000%Z [] [] [].

Definition allRejected : BatchResponse :=
  mkBatchResponse [mkSendResponse false None] 0 1.

Definition delivered (msgs : list Message) : BatchResponse :=
  mkBatchResponse (List.map (fun _ => mkSendResponse true (Some "m")) msgs)
                  (Z.of_nat (List.length msgs)) 0.

(** Every collaborator answers; the transport delivers everything. *)
Definition happy : Env :=
  mkEnv (fun _ _ _ => None) (fun _ => None) (fun _ => None)
        (fun msgs => inr (delivered msgs)) (fun _ => ["k1"; "k2"]).

(** The transport rejects every message. *)
Definition rejecting : Env :=
  mkEnv (fun _ _ _ => None) (fun _ => None) (fun _ => None)
        (fun _ => inr allRejected) (fun _ => []).

(** The billing service refuses every action. *)
Definition overQuota : Env :=
  mkEnv (fun _ _ _ => Some "quota") (fun _ => None) (fun _ => None)
        (fun msgs => inr (delivered msgs)) (fun _ => []).

(** The batch collection refuses every insert. *)
Definition batchDown : Env :=
  mkEnv (fun _ _ _ => None) (fun _ => Some "db") (fun _ => None)
        (fun msgs => inr (delivered msgs)) (fun _ => []).

(** The transport raises for messages to "+2" and delivers the others. *)
Definition flaky : Env :=
  mkEnv (fun _ _ _ => None) (fun _ => None) (fun _ => None)
        (fun msgs =>
           if List.existsb
                (fun m => List.existsb (String.eqb "+2")
                                       (data_recipients (data m))) msgs
           then inl "fcm" else inr (delivered msgs))
        (fun _ => []).

Definition bothTimestamps : ReceivedSMSDTO :=
  mkReceivedSMSDTO (Some "hi") (Some "+15551234")
                   (Some (ValidDate 5)) (Some 1000%Z).

Definition millisOnly : ReceivedSMSDTO :=
  mkReceivedSMSDTO (Some "hi") (Some "+15551234") None (Some 1000%Z).

Definition absoluteOnly : ReceivedSMSDTO :=
  mkReceivedSMSDTO (Some "hi") (Some "+15551234") (Some (ValidDate 5)) None.

Definition hello : SendSMSInputDTO :=
  mkSendSMSInputDTO (Some "hi") None (ArrayValue ["+1"; "+2"]) Absent.

(** No body and an empty recipient list. *)
Definition blankToNobody : SendSMSInputDTO :=
  mkSendSMSInputDTO None None (ArrayValue []) Absent.

(** A body and an empty recipient list. *)
Definition helloToNobody : SendSMSInputDTO :=
  mkSendSMSInputDTO (Some "hi") None (ArrayValue []) Absent.

(** A sub-message that names no recipients at all. *)
Definition noRecipients : SendSMSInputDTO :=
  mkSendSMSInputDTO (Some "hi") None Absent Absent.

Definition toOne : SendSMSInputDTO :=
  mkSendSMSInputDTO (Some "yo") None (ArrayValue ["+1"]) Absent.

Definition toTwoAndFour : SendSMSInputDTO :=
  mkSendSMSInputDTO (Some "b") None (ArrayValue ["+2"; "+4"]) Absent.

Definition bulkOf (messages : list SendSMSInputDTO) : SendBulkSMSInputDTO :=
  mkSendBulkSMSInputDTO (Some "template") (Some messages).

(** 51 sub-messages of one recipient each. *)
Definition fiftyOne : SendBulkSMSInputDTO :=
  bulkOf (List.repeat toOne 51).

End Sample.

(** ** Vocabulary of the statements *)

Definition sumZ (l : list Z) : Z := List.fold_right Z.add 0%Z l.

(** Running the same request [n] times in a row; each run starts in the
    world the previous one left, whether it returned or threw. *)
Fixpoint runTimes {A} (n : nat) (m : M A) (w : World)
  : list (Result A) * World :=
  match n with
  | 0 => ([], w)
  | S n =>
      let (r, w1) := m w in
      let (rs, w2) := runTimes n m w1 in
      (r :: rs, w2)
  end.

Definition isSmsCreate (c : Call) : bool :=
  match c with
  | SmsCreate _ _ => true
  | _ => false
  end.

Definition isSendEach (c : Call) : bool :=
  match c with
  | SendEach _ _ => true
  | _ => false
  end.

(** The transport responses obtained in a stretch of the call log. *)
Definition obtained (cs : list Call) : list BatchResponse :=
  List.flat_map
    (fun c => match c with SendEach _ (inr r) => [r] | _ => [] end) cs.

(** The counter increments that go with a list of transport responses. *)
Definition incrementsFor (deviceId : string) (rs : list BatchResponse)
  : list CounterInc :=
  List.map (fun r => mkCounterInc deviceId SentSMSCount (successCount r)) rs.

(** A counter read as the statistics describe it: absent counts as 0. *)
Definition counterValue (c : option Z) : Z :=
  match c with
  | Some n => n
  | None => 0%Z
  end.

Definition sumCounters (f : Device -> option Z) (ds : list Device) : Z :=
  List.fold_right (fun d acc => (counterValue (f d) + acc)%Z) 0%Z ds.

(** Recipient counts of sub-messages whose [recipients] are arrays. *)
Definition arrayLength (m : SendSMSInputDTO) : nat :=
  match dto_recipients m with
  | ArrayValue l => List.length l
  | _ => 0
  end.

(** A sub-message the bulk loop passes over: blank body, or recipients
    that are absent, not an array, or an empty array. *)
Definition skipped (m : SendSMSInputDTO) : bool :=
  negb (truthyString (dto_message m))
  || match dto_recipients m with
     | ArrayValue (_ :: _) => false
     | _ => true
     end.

(** * Properties *)

(** ** RecipientPreview *)

Lemma getRecipientsPreview_refines (recipients : list string) :
  getRecipientsPreview recipients = previewBySpec recipients.
Proof.
  destruct recipients as [|a [|b [|c [|d rest]]]]; reflexivity.
Qed.

(** C8. The preview is a function of the ordered recipient list alone:
    no item gives no preview, one item gives the item, two give
    "A and B", three give "A, B, and C", and more than three give
    "A, B, and N others" with N the number of items minus 2; the items
    shown are the first ones, in input order. *)
Theorem getRecipientsPreview_cases :
  getRecipientsPreview [] = None
  /\ (forall a, getRecipientsPreview [a] = Some a)
  /\ (forall a b, getRecipientsPreview [a; b] = Some (a ++ " and " ++ b))
  /\ (forall a b c,
        getRecipientsPreview [a; b; c]
        = Some (a ++ ", " ++ b ++ ", and " ++ c))
  /\ (forall a b c d rest,
        getRecipientsPreview (a :: b :: c :: d :: rest)
        = Some (a ++ ", " ++ b ++ ", and "
                  ++ numberToString
                       (List.length (a :: b :: c :: d :: rest) - 2)
                  ++ " others"))
  /\ getRecipientsPreview ["A"; "B"; "C"; "D"; "E"]
     = Some "A, B, and 3 others"
  /\ (forall recipients,
        getRecipientsPreview recipients = previewBySpec recipients).
Proof.
  repeat split; intros; try reflexivity;
    try apply getRecipientsPreview_refines.
Qed.

(** ** Statistics *)

Lemma orZero_counterValue (c : option Z) : orZero c = counterValue c.
Proof.
  destruct c as [n|]; simpl; [|reflexivity].
  destruct (Z.eqb_spec n 0); congruence.
Qed.

Lemma fold_left_orZero (f : Device -> option Z) (ds : list Device) (acc : Z) :
  List.fold_left (fun a d => (a + orZero (f d))%Z) ds acc
  = (acc + sumCounters f ds)%Z.
Proof.
  revert acc; induction ds as [|d ds IH]; intros acc; simpl.
  - lia.
  - rewrite IH, orZero_counterValue. lia.
Qed.

(** C10. The statistics of a user are computed over [mine], the devices
    of the collection whose owner is that user, each taken once and in
    collection order: the sent and received totals are the sums of the
    two counters over [mine], an absent counter counting as 0; the device
    count is the length of [mine]; the key count is the number of keys
    the auth service lists for the user.  The call changes nothing. *)
Theorem getStatsForUser_totals (E : Env) (user : User) (w : World) :
  let mine :=
    List.filter (fun d => dev_user d =? user_id user) (devices w) in
  getStatsForUser E user w
  = (Ok (mkStats (sumCounters sentSMSCount mine)
                 (sumCounters receivedSMSCount mine)
                 (List.length mine)
                 (List.length (getUserApiKeys E user))),
     w)
  /\ (forall d, In d mine <->
                In d (devices w) /\ dev_user d = user_id user).
Proof.
  cbv zeta. split.
  - unfold getStatsForUser, bind, ret, findByUser, gets.
    rewrite !fold_left_orZero, !Z.add_0_l. reflexivity.
  - intros d. rewrite filter_In, String.eqb_eq. tauto.
Qed.

(** The sample world: one user with two devices, counters 4 and absent
    sent, absent and 7 received, and two keys. *)
Example getStatsForUser_sample :
  getStatsForUser Sample.happy (mkUser "u1") Sample.world
  = (Ok (mkStats 4 7 2 2), Sample.world)
  /\ getStatsForUser Sample.happy (mkUser "u2") Sample.world
     = (Ok (mkStats 0 0 0 2), Sample.world).
Proof. split; reflexivity. Qed.

(** ** Device registry *)

Lemma find_device_In (deviceId : string) (ds : list Device) :
  (exists d, List.find (fun d => dev_id d =? deviceId) ds = Some d)
  <-> (exists d, In d ds /\ dev_id d = deviceId).
Proof.
  split.
  - intros [d H]. apply find_some in H. destruct H as [Hin Heq].
    exists d. split; [assumption|]. now apply String.eqb_eq.
  - intros [d [Hin Heq]].
    destruct (List.find (fun d => dev_id d =? deviceId) ds) as [d'|] eqn:F.
    + now exists d'.
    + apply (find_none _ _ F) in Hin. apply String.eqb_neq in Hin.
      contradiction.
Qed.

Lemma deleteDevice_run (deviceId : string) (w : World) :
  deleteDevice deviceId w
  = (match List.find (fun d => dev_id d =? deviceId) (devices w) with
     | Some _ => Ok tt
     | None => Throw deviceNotFound
     end, w).
Proof.
  unfold deleteDevice, bind, findById, gets.
  destruct (List.find _ (devices w)); reflexivity.
Qed.

(** C3, as the code has it.  Deleting never changes the world, so the
    record of an existing device stays as it was and any number of
    deletes in a row answer alike: with the empty acknowledgement when a
    device has that id, with the not-found error when none has. *)
Theorem deleteDevice_soft (deviceId : string) (w : World) (n : nat) :
  exists r,
    runTimes n (deleteDevice deviceId) w = (List.repeat r n, w)
    /\ (r = Ok tt <->
        exists d, In d (devices w) /\ dev_id d = deviceId)
    /\ (r = Throw deviceNotFound <->
        ~ exists d, In d (devices w) /\ dev_id d = deviceId).
Proof.
  exists (match List.find (fun d => dev_id d =? deviceId) (devices w) with
          | Some _ => Ok tt
          | None => Throw deviceNotFound
          end).
  split.
  - induction n as [|n IH]; [reflexivity|].
    cbn [runTimes List.repeat]. rewrite deleteDevice_run, IH. reflexivity.
  - rewrite <- find_device_In.
    destruct (List.find _ (devices w)) as [d|].
    + split; split; intros H; try reflexivity; try discriminate.
      * now exists d.
      * exfalso. apply H. now exists d.
    + split; split; intros H; try reflexivity; try discriminate.
      * destruct H as [d H]. discriminate.
      * intros [d H']. discriminate.
Qed.

(** C3 as stated fails: no device has id "d9", and the delete throws. *)
Lemma deleteDevice_missing_throws :
  deleteDevice "d9" Sample.world = (Throw deviceNotFound, Sample.world)
  /\ ~ (forall deviceId w, exists w',
           deleteDevice deviceId w = (Ok tt, w')).
Proof.
  split; [reflexivity|].
  intros H. destruct (H "d9" Sample.world) as [w' H']. discriminate.
Qed.

(** ** Stepping through a run *)

Ltac run_ops :=
  cbv [bind tryCatch ret throw gets modify findById findByUser checkQuota
       smsBatchCreate smsCreate sendEachCall incrementCounter
       deliverNotification now] in *.

(** Case analysis on an innermost scrutinee of [H]. *)
Ltac case_step H :=
  match type of H with
  | context [match ?x with _ => _ end] =>
      lazymatch x with
      | context [match _ with _ => _ end] => fail
      | _ => destruct x eqn:?
      end
  end.

Ltac run_cases H := repeat (case_step H; cbn beta iota in H).

Ltac inv H := inversion H; subst; clear H.

(** ** Inbound recorder *)

Lemma truthyNumber_false (n : option Z) :
  truthyNumber n = false <-> n = None \/ n = Some 0%Z.
Proof.
  destruct n as [n|]; simpl.
  - destruct (Z.eqb_spec n 0); simpl; split; intros H;
      try subst; auto; try discriminate.
    destruct H as [H|H]; [discriminate | congruence].
  - split; auto.
Qed.

Lemma receivedAtOf_millis (dto : ReceivedSMSDTO) (ms : Z) :
  rcv_receivedAtInMillis dto = Some ms -> ms <> 0%Z ->
  receivedAtOf dto = Some (newDate ms).
Proof.
  intros H Hms. unfold receivedAtOf. rewrite H.
  destruct (Z.eqb_spec ms 0); congruence.
Qed.

Lemma receivedAtOf_absolute (dto : ReceivedSMSDTO) :
  truthyNumber (rcv_receivedAtInMillis dto) = false ->
  receivedAtOf dto = rcv_receivedAt dto.
Proof.
  intros H. apply truthyNumber_false in H. unfold receivedAtOf.
  destruct H as [H|H]; rewrite H; reflexivity.
Qed.

(** What a run of [receiveSMS] that returns has done. *)
Lemma receiveSMS_returns (E : Env) (deviceId : string) (dto : ReceivedSMSDTO)
      (w w' : World) (sms : SMS) :
  receiveSMS E deviceId dto w = (Ok sms, w') ->
  exists device message sender,
    List.find (fun d => dev_id d =? deviceId) (devices w) = Some device
    /\ rcv_message dto = Some message /\ message <> ""
    /\ rcv_sender dto = Some sender /\ sender <> ""
    /\ (rcv_receivedAt dto = None ->
        truthyNumber (rcv_receivedAtInMillis dto) = true)
    /\ sms = mkSMS (nextId w)
                   (receivedDoc device message sender (receivedAtOf dto))
    /\ smsCollection w' = (smsCollection w ++ [sms])%list
    /\ detached w'
       = (detached w ++ [mkCounterInc deviceId ReceivedSMSCount 1])%list
    /\ notifications w'
       = (notifications w
            ++ [mkNotification sms (dev_user device) MESSAGE_RECEIVED])%list.
Proof.
  intros H. unfold receiveSMS in H. run_ops. run_cases H;
    try discriminate.
  all: inv H.
  all: repeat match goal with
         | H : (_ || _)%bool = false |- _ =>
             apply orb_false_elim in H; destruct H
         | H : (_ =? _) = false |- _ => apply String.eqb_neq in H
         end.
  all: do 3 eexists; repeat split; try eassumption; try reflexivity.
  all: intros Hnone; try discriminate.
  match goal with
  | H : (_ && _)%bool = false |- _ => simpl in H; now apply negb_false_iff
  end.
Qed.

(** C1, as the code has it.  The unit an inbound message leaves in the
    collection takes its receivedAt from the epoch-millis field whenever
    that field is present and not zero, whether or not an absolute
    timestamp came with it; the absolute timestamp is used only when the
    millis field is absent or zero. *)
Theorem receiveSMS_receivedAt (E : Env) (deviceId : string)
        (dto : ReceivedSMSDTO) (w w' : World) (sms : SMS) :
  receiveSMS E deviceId dto w = (Ok sms, w') ->
  smsCollection w' = (smsCollection w ++ [sms])%list
  /\ sms_type (sms_doc sms) = RECEIVED
  /\ (forall ms, rcv_receivedAtInMillis dto = Some ms -> ms <> 0%Z ->
                 sms_receivedAt (sms_doc sms) = Some (newDate ms))
  /\ (rcv_receivedAtInMillis dto = None
      \/ rcv_receivedAtInMillis dto = Some 0%Z ->
      exists t, rcv_receivedAt dto = Some t
                /\ sms_receivedAt (sms_doc sms) = Some t).
Proof.
  intros H. apply receiveSMS_returns in H.
  destruct H as (device & message & sender & _ & _ & _ & _ & _ & Hts & -> &
                 Hcol & _).
  split; [exact Hcol|]. split; [reflexivity|]. split.
  - intros ms Hms Hnz. cbn [sms_doc sms_receivedAt receivedDoc].
    now apply receivedAtOf_millis.
  - intros Hfalsy. apply truthyNumber_false in Hfalsy.
    cbn [sms_doc sms_receivedAt receivedDoc].
    rewrite (receivedAtOf_absolute _ Hfalsy).
    destruct (rcv_receivedAt dto) as [t|].
    + now exists t.
    + specialize (Hts eq_refl). congruence.
Qed.

(** C1 as stated fails: with both fields present the persisted unit
    carries the date made from the millis, not the absolute timestamp. *)
Lemma receiveSMS_prefers_millis :
  exists sms w',
    receiveSMS Sample.happy "d1" Sample.bothTimestamps Sample.world
    = (Ok sms, w')
    /\ In sms (smsCollection w')
    /\ rcv_receivedAt Sample.bothTimestamps = Some (ValidDate 5)
    /\ sms_receivedAt (sms_doc sms) = Some (ValidDate 1000)
    /\ sms_receivedAt (sms_doc sms) <> rcv_receivedAt Sample.bothTimestamps.
Proof.
  do 2 eexists. split; [reflexivity|].
  split; [left; reflexivity|].
  repeat split; try reflexivity. discriminate.
Qed.

Lemma receiveSMS_receivedAt_witness :
  exists sms w',
    receiveSMS Sample.happy "d1" Sample.millisOnly Sample.world = (Ok sms, w')
    /\ sms_receivedAt (sms_doc sms) = Some (newDate 1000).
Proof.
  do 2 eexists. split; [reflexivity|].
  apply (receiveSMS_receivedAt Sample.happy "d1" Sample.millisOnly
                               Sample.world _ _ eq_refl).
  - reflexivity.
  - discriminate.
Defined.

(** ** The per-recipient loop *)

Section Units.

Variable E : Env.
Variables (device : Device) (smsBatch : SMSBatch) (message : string).

(** The loop touches the message collection and the call log only; it
    stops at the first insert the collection refuses. *)
Lemma createUnits_run (recipients : list string) :
  forall (w w' : World) (r : Result (list Message)),
    createUnits E device smsBatch message recipients w = (r, w') ->
    devices w' = devices w
    /\ smsBatchCollection w' = smsBatchCollection w
    /\ detached w' = detached w
    /\ notifications w' = notifications w
    /\ exists units,
        calls w' = (calls w ++ units)%list
        /\ forallb isSmsCreate units = true
        /\ ((exists fcmMessages,
               r = Ok fcmMessages
               /\ List.length fcmMessages = List.length recipients
               /\ List.length (smsCollection w')
                  = List.length (smsCollection w) + List.length recipients
               /\ List.length units = List.length recipients
               /\ obtained units = [])
            \/ (exists c doc before,
                   r = Throw (Thrown c)
                   /\ smsCreateError E doc = Some c
                   /\ units = (before ++ [SmsCreate doc (Some c)])%list)).
Proof.
  induction recipients as [|recipient rest IH]; intros w w' r H.
  - inv H. repeat split. exists []. rewrite app_nil_r.
    repeat split. left. exists []. repeat split. simpl. lia.
  - cbn [createUnits] in H. run_ops.
    destruct (smsCreateError E _) as [c|] eqn:Hc.
    + inv H. cbn [devices smsBatchCollection detached notifications calls
                  logCall]. repeat split.
      eexists. split; [reflexivity|]. split; [reflexivity|].
      right. exists c. eexists. exists [].
      split; [reflexivity|]. split; [exact Hc | reflexivity].
    + destruct (createUnits E device smsBatch message rest _)
        as [r1 w1] eqn:Hrest.
      apply IH in Hrest.
      destruct Hrest as (Hd & Hb & Hdet & Hn & units & Hcalls & Hall & Hres).
      cbn [devices smsBatchCollection detached notifications calls
           smsCollection logCall insertSMS] in *.
      assert (Hw' : w' = w1) by (destruct r1; inv H; reflexivity).
      subst w'. repeat split; try assumption.
      eexists. split; [rewrite Hcalls, <- app_assoc; reflexivity|].
      split; [exact Hall|].
      destruct Hres as [(msgs & -> & Hlen & Hcol & Hu & Hob)|Hthrow].
      * inv H. left. eexists. repeat split; cbn [List.length].
        -- now rewrite Hlen.
        -- rewrite Hcol, length_app. simpl. lia.
        -- simpl. now rewrite Hu.
        -- exact Hob.
      * right. destruct Hthrow as (c & doc & before & -> & Hdoc & ->).
        inv H. exists c, doc. eexists. split; [reflexivity|].
        split; [exact Hdoc|]. rewrite app_assoc. reflexivity.
Qed.

End Units.

Ltac frame :=
  cbn [devices notifications calls smsCollection smsBatchCollection detached
       nextId clock logCall insertSMS insertSMSBatch detach notify] in *.

Ltac use_units :=
  match goal with
  | H : createUnits _ _ _ _ _ _ = (_, _) |- _ =>
      apply createUnits_run in H;
      destruct H as (Hd & Hb & Hdet & Hn & units & Hcalls & Hall & Hres)
  end.

(** ** Single send *)

Section SingleSend.

Variable E : Env.

(** Every run of [sendSMS] follows one of these paths; [new] is what the
    run added to the call log. *)
Lemma sendSMS_paths (deviceId : string) (smsData : SendSMSInputDTO)
      (w w' : World) (r : Result BatchResponse) :
  sendSMS E deviceId smsData w = (r, w') ->
  devices w' = devices w
  /\ notifications w' = notifications w
  /\ exists new,
      calls w' = (calls w ++ new)%list
      /\ ((new = [] /\ r = Throw deviceNotEnabled /\ w' = w
           /\ forall d,
               List.find (fun d => dev_id d =? deviceId) (devices w) = Some d ->
               enabled d = false)
          \/ exists device,
              List.find (fun d => dev_id d =? deviceId) (devices w)
              = Some device
              /\ enabled device = true
              /\ ((new = [] /\ r = Throw TypeError /\ w' = w)
                  \/ (exists n c,
                         new = [CanPerformAction (dev_user device) send_sms n
                                                 (Some c)]
                         /\ r = Throw (Thrown c)
                         /\ smsCollection w' = smsCollection w
                         /\ smsBatchCollection w' = smsBatchCollection w
                         /\ detached w' = detached w)
                  \/ (exists n,
                         new = [CanPerformAction (dev_user device) send_sms n
                                                 None]
                         /\ (r = Throw messageBlank
                             \/ r = Throw invalidRecipients)
                         /\ smsCollection w' = smsCollection w
                         /\ smsBatchCollection w' = smsBatchCollection w
                         /\ detached w' = detached w)
                  \/ (exists n doc c,
                         new = [CanPerformAction (dev_user device) send_sms n
                                                 None;
                                SmsBatchCreate doc (Some c)]
                         /\ r = Throw (failedToCreateBatch (Thrown c))
                         /\ smsCollection w' = smsCollection w
                         /\ smsBatchCollection w' = smsBatchCollection w
                         /\ detached w' = detached w)
                  \/ (exists n doc units c,
                         new = CanPerformAction (dev_user device) send_sms n
                                                None
                               :: SmsBatchCreate doc None :: units
                         /\ forallb isSmsCreate units = true
                         /\ r = Throw (Thrown c)
                         /\ detached w' = detached w)
                  \/ (exists n doc units msgs,
                         new = (CanPerformAction (dev_user device) send_sms n
                                                 None
                                :: SmsBatchCreate doc None :: units
                                ++ [SendEach msgs (sendEach E msgs)])%list
                         /\ forallb isSmsCreate units = true
                         /\ match sendEach E msgs with
                            | inl c =>
                                r = Throw (failedToSend (InfoError (Thrown c)))
                                /\ detached w' = detached w
                            | inr response =>
                                if (successCount response =? 0)%Z
                                then
                                  r = Throw
                                        (failedToSend
                                           (InfoError
                                              (failedToSend
                                                 (InfoResponse response))))
                                  /\ detached w' = detached w
                                else
                                  r = Ok response
                                  /\ detached w'
                                     = (detached w
                                          ++ [mkCounterInc deviceId
                                                SentSMSCount
                                                (successCount response)])%list
                            end))).
Proof.
  intros H. unfold sendSMS in H. run_ops. run_cases H.
  all: inv H; try use_units; frame.
  all: (split; [congruence|]); (split; [congruence|]).
  all: eexists;
    (split; [first [ try rewrite Hcalls; rewrite <- ?app_assoc; reflexivity
                   | symmetry; apply app_nil_r ]|]).
  all: try (right; exists d; split; [reflexivity|];
            split; [now apply negb_false_iff|]).
  - (* the device is disabled *)
    left. repeat split. intros d0 Hd0.
    assert (d0 = d) by congruence. subst d0. now apply negb_true_iff.
  - right; left. do 2 eexists. repeat split.
  - do 2 right; left. eexists. repeat split. now left.
  - do 2 right; left. eexists. repeat split. now right.
  - do 2 right; left. eexists. repeat split. now right.
  - do 2 right; left. eexists. repeat split. now right.
  - do 3 right; left. do 3 eexists. repeat split.
  - do 5 right. do 3 eexists. exists a. rewrite Heqs1.
    repeat split; [exact Hall | congruence].
  - do 5 right. do 3 eexists. exists a. rewrite Heqs1, Heqb1.
    repeat split; [exact Hall | congruence].
  - do 5 right. do 3 eexists. exists a. rewrite Heqs1, Heqb1.
    repeat split; [exact Hall | congruence].
  - do 4 right; left.
    destruct Hres as [(msgs & Hok & _)|(c & doc & before & Hthrow & _)];
      [discriminate|].
    inv Hthrow. do 4 eexists. repeat split; [exact Hall | congruence].
  - do 2 right; left. eexists. repeat split. now left.
  - left. repeat split.
  - (* no device has this id *)
    left. repeat split. intros d0 Hd0. congruence.
Qed.

End SingleSend.

Lemma units_are_creates (units : list Call) (call : Call) :
  forallb isSmsCreate units = true -> In call units ->
  isSmsCreate call = true.
Proof.
  intros Hall Hin. rewrite forallb_forall in Hall. now apply Hall.
Qed.

Section SingleSendClaims.

Variable E : Env.

(** C4. When the insert of the batch record fails with cause [c], the
    call fails with the batch-persist error carrying [c]; nothing was
    added to either collection, no counter increment was started, and
    the run made no insert of a unit and no transport call. *)
Theorem sendSMS_batch_failure (deviceId : string) (smsData : SendSMSInputDTO)
        (w w' : World) (r : Result BatchResponse) (new : list Call)
        (doc : SMSBatchInput) (c : Cause) :
  sendSMS E deviceId smsData w = (r, w') ->
  calls w' = (calls w ++ new)%list ->
  In (SmsBatchCreate doc (Some c)) new ->
  r = Throw (failedToCreateBatch (Thrown c))
  /\ smsCollection w' = smsCollection w
  /\ smsBatchCollection w' = smsBatchCollection w
  /\ detached w' = detached w
  /\ List.existsb isSmsCreate new = false
  /\ List.existsb isSendEach new = false.
Proof.
  intros Hrun Hcalls Hin.
  destruct (sendSMS_paths E _ _ _ _ _ Hrun)
    as (_ & _ & new' & Hcalls' & Hpath).
  rewrite Hcalls in Hcalls'. apply app_inv_head in Hcalls'. subst new'.
  destruct Hpath as [(-> & _)|(device & _ & _ & Hpath)]; [destruct Hin|].
  destruct Hpath as [(-> & _)|[(n & c' & -> & _)|[(n & -> & _)|
    [(n & doc' & c' & -> & -> & Hs & Hb & Hd)|
     [(n & doc' & units & c' & -> & Hall & _)|
      (n & doc' & units & msgs & -> & Hall & _)]]]]]; simpl in Hin.
  - destruct Hin.
  - destruct Hin as [Hin|[]]; discriminate.
  - destruct Hin as [Hin|[]]; discriminate.
  - destruct Hin as [Hin|[Hin|[]]]; [discriminate|]. inv Hin.
    repeat split; assumption.
  - destruct Hin as [Hin|[Hin|Hin]]; try discriminate.
    apply (units_are_creates _ _ Hall) in Hin. discriminate.
  - destruct Hin as [Hin|[Hin|Hin]]; try discriminate.
    apply in_app_or in Hin. destruct Hin as [Hin|[Hin|[]]].
    + apply (units_are_creates _ _ Hall) in Hin. discriminate.
    + discriminate.
Qed.

(** What the single send does when the transport answers with no
    success at all: the exception thrown at the successCount check is
    caught by the enclosing handler and thrown again inside a second
    exception.  No counter increment is started. *)
Lemma sendSMS_zero_success (deviceId : string) (smsData : SendSMSInputDTO)
      (w w' : World) (r : Result BatchResponse) (new : list Call)
      (msgs : list Message) (response : BatchResponse) :
  sendSMS E deviceId smsData w = (r, w') ->
  calls w' = (calls w ++ new)%list ->
  In (SendEach msgs (inr response)) new ->
  successCount response = 0%Z ->
  r = Throw (failedToSend
               (InfoError (failedToSend (InfoResponse response))))
  /\ detached w' = detached w
  /\ devices w' = devices w.
Proof.
  intros Hrun Hcalls Hin Hzero.
  destruct (sendSMS_paths E _ _ _ _ _ Hrun)
    as (Hdev & _ & new' & Hcalls' & Hpath).
  rewrite Hcalls in Hcalls'. apply app_inv_head in Hcalls'. subst new'.
  destruct Hpath as [(-> & _)|(device & _ & _ & Hpath)]; [destruct Hin|].
  destruct Hpath as [(-> & _)|[(n & c' & -> & _)|[(n & -> & _)|
    [(n & doc' & c' & -> & _)|
     [(n & doc' & units & c' & -> & Hall & _)|
      (n & doc' & units & msgs' & -> & Hall & Hout)]]]]]; simpl in Hin.
  - destruct Hin.
  - destruct Hin as [Hin|[]]; discriminate.
  - destruct Hin as [Hin|[]]; discriminate.
  - destruct Hin as [Hin|[Hin|[]]]; discriminate.
  - destruct Hin as [Hin|[Hin|Hin]]; try discriminate.
    apply (units_are_creates _ _ Hall) in Hin. discriminate.
  - destruct Hin as [Hin|[Hin|Hin]]; try discriminate.
    apply in_app_or in Hin. destruct Hin as [Hin|[Hin|[]]].
    + apply (units_are_creates _ _ Hall) in Hin. discriminate.
    + inv Hin.
      match goal with H : sendEach E _ = inr _ |- _ => rewrite H in Hout end.
      rewrite Hzero in Hout. simpl in Hout. destruct Hout as [-> Hdet].
      repeat split; assumption.
Qed.

(** The device check of the outbound path: the call is turned away as
    "does not exist or is not enabled" exactly when no device has the id
    or the one that has it is disabled. *)
Lemma sendSMS_device_check (deviceId : string) (smsData : SendSMSInputDTO)
      (w : World) :
  fst (sendSMS E deviceId smsData w) = Throw deviceNotEnabled
  <-> (forall d,
         List.find (fun d => dev_id d =? deviceId) (devices w) = Some d ->
         enabled d = false).
Proof.
  destruct (sendSMS E deviceId smsData w) as [r w'] eqn:Hrun.
  destruct (sendSMS_paths E _ _ _ _ _ Hrun) as (_ & _ & new & _ & Hpath).
  cbn [fst].
  destruct Hpath as [(_ & -> & _ & Hoff)|(device & Hfind & Hon & Hpath)].
  - split; auto.
  - split.
    + intros ->. exfalso.
      destruct Hpath as [(_ & Hr & _)|[(n & c' & _ & Hr & _)|
        [(n & _ & [Hr|Hr] & _)|[(n & doc' & c' & _ & Hr & _)|
         [(n & doc' & units & c' & _ & _ & Hr & _)|
          (n & doc' & units & msgs & _ & _ & Hout)]]]]]; try discriminate.
      destruct (sendEach E msgs) as [c'|response].
      * destruct Hout as [Hr _]. discriminate.
      * destruct (successCount response =? 0)%Z;
          destruct Hout as [Hr _]; discriminate.
    + intros Hoff. specialize (Hoff _ Hfind). congruence.
Qed.

End SingleSendClaims.

(** ** Order of the quota check and the payload checks *)

(** C2, as the code has it.  On an enabled device, when the resolved
    recipient value is present but is not an array, or is an empty array,
    the billing service is asked first, with the [length] of that value;
    the run does nothing else.  If billing refuses, its error is the
    result.  If billing agrees, the result is the invalid-recipients error
    when the resolved message is not blank, and the blank-message error
    when it is. *)
Theorem sendSMS_invalid_recipients (E : Env) (deviceId : string)
        (smsData : SendSMSInputDTO) (w : World) (device : Device)
        (count : nat) :
  List.find (fun d => dev_id d =? deviceId) (devices w) = Some device ->
  enabled device = true ->
  lengthOf (orRecipients (dto_recipients smsData) (dto_receivers smsData))
  = Some count ->
  isArray (orRecipients (dto_recipients smsData) (dto_receivers smsData))
  = false
  \/ orRecipients (dto_recipients smsData) (dto_receivers smsData)
     = ArrayValue [] ->
  snd (sendSMS E deviceId smsData w)
  = logCall (CanPerformAction (dev_user device) send_sms count
               (canPerformAction E (dev_user device) send_sms count)) w
  /\ (forall c,
        canPerformAction E (dev_user device) send_sms count = Some c ->
        fst (sendSMS E deviceId smsData w) = Throw (Thrown c))
  /\ (canPerformAction E (dev_user device) send_sms count = None ->
      truthyString (orString (dto_message smsData) (dto_smsBody smsData))
      = true ->
      fst (sendSMS E deviceId smsData w) = Throw invalidRecipients)
  /\ (canPerformAction E (dev_user device) send_sms count = None ->
      truthyString (orString (dto_message smsData) (dto_smsBody smsData))
      = false ->
      fst (sendSMS E deviceId smsData w) = Throw messageBlank).
Proof.
  intros Hfind Hon Hlen Hbad.
  unfold sendSMS. run_ops. rewrite Hfind, Hon. cbn [negb]. rewrite Hlen.
  destruct (canPerformAction E (dev_user device) send_sms count) as [c|].
  - cbn [fst snd]. repeat split; intros; try discriminate. congruence.
  - destruct (orString (dto_message smsData) (dto_smsBody smsData))
      as [message|]; cbn [truthyString].
    + destruct (message =? ""); cbn [negb].
      * repeat split; intros; discriminate.
      * destruct Hbad as [Hbad|Hbad].
        -- destruct (orRecipients _ _); try discriminate;
             repeat split; intros; discriminate.
        -- rewrite Hbad. repeat split; intros; discriminate.
    + repeat split; intros; discriminate.
Qed.

(** C2 as stated fails: an empty recipient list on an enabled device,
    billing agreeing, and the call ends in the blank-message error. *)
Lemma sendSMS_blank_before_recipients :
  let run := sendSMS Sample.happy "d1" Sample.blankToNobody Sample.world in
  orRecipients (dto_recipients Sample.blankToNobody)
               (dto_receivers Sample.blankToNobody) = ArrayValue []
  /\ calls (snd run) = [CanPerformAction "u1" send_sms 0 None]
  /\ fst run = Throw messageBlank
  /\ fst run <> Throw invalidRecipients.
Proof.
  cbv zeta. repeat split. discriminate.
Qed.

Lemma sendSMS_invalid_recipients_witness :
  let run := sendSMS Sample.happy "d1" Sample.helloToNobody Sample.world in
  calls (snd run) = [CanPerformAction "u1" send_sms 0 None]
  /\ fst run = Throw invalidRecipients.
Proof.
  cbv zeta.
  destruct (sendSMS_invalid_recipients
              Sample.happy "d1" Sample.helloToNobody Sample.world
              Sample.phone 0 eq_refl eq_refl eq_refl (or_intror eq_refl))
    as (Hw & _ & Hr & _).
  split.
  - rewrite Hw. reflexivity.
  - apply Hr; reflexivity.
Defined.

Lemma sendSMS_batch_failure_witness :
  let run := sendSMS Sample.batchDown "d1" Sample.hello Sample.world in
  fst run = Throw (failedToCreateBatch (Thrown "db"))
  /\ smsCollection (snd run) = []
  /\ smsBatchCollection (snd run) = []
  /\ detached (snd run) = []
  /\ List.existsb isSmsCreate (calls (snd run)) = false
  /\ List.existsb isSendEach (calls (snd run)) = false.
Proof.
  cbv zeta.
  apply (sendSMS_batch_failure
           Sample.batchDown "d1" Sample.hello Sample.world _ _
           (calls (snd (sendSMS Sample.batchDown "d1" Sample.hello
                                Sample.world)))
           (mkSMSBatchInput "d1" (Some "hi") 2 (Some "+1 and +2")) "db").
  - apply surjective_pairing.
  - reflexivity.
  - vm_compute. right. left. reflexivity.
Defined.

(** C5, at a request the transport rejects in full.  The response
    reports no success; the error the caller gets is the exception of
    the enclosing handler, whose additionalInfo is the exception thrown
    at the successCount check, and only that inner exception holds the
    transport response.  No counter increment is started. *)
Theorem sendSMS_all_rejected :
  let run := sendSMS Sample.rejecting "d1" Sample.toOne Sample.world in
  obtained (calls (snd run)) = [Sample.allRejected]
  /\ successCount Sample.allRejected = 0%Z
  /\ fst run
     = Throw (failedToSend
                (InfoError
                   (failedToSend (InfoResponse Sample.allRejected))))
  /\ fst run <> Throw (failedToSend (InfoResponse Sample.allRejected))
  /\ detached (snd run) = [].
Proof.
  cbv zeta. repeat split. discriminate.
Qed.

(** ** Bulk send *)

Lemma obtained_app (xs ys : list Call) :
  obtained (xs ++ ys) = (obtained xs ++ obtained ys)%list.
Proof. apply flat_map_app. Qed.

Lemma sumSuccess_sumZ (rs : list BatchResponse) :
  sumSuccess rs = sumZ (List.map successCount rs).
Proof.
  unfold sumSuccess.
  enough (G : forall acc,
             List.fold_left (fun a m => (a + successCount m)%Z) rs acc
             = (acc + sumZ (List.map successCount rs))%Z)
    by (rewrite G; lia).
  induction rs as [|x rs IH]; intros acc; simpl; [lia|].
  rewrite IH. lia.
Qed.

Lemma sumFailure_sumZ (rs : list BatchResponse) :
  sumFailure rs = sumZ (List.map failureCount rs).
Proof.
  unfold sumFailure.
  enough (G : forall acc,
             List.fold_left (fun a m => (a + failureCount m)%Z) rs acc
             = (acc + sumZ (List.map failureCount rs))%Z)
    by (rewrite G; lia).
  induction rs as [|x rs IH]; intros acc; simpl; [lia|].
  rewrite IH. lia.
Qed.

Section BulkLoop.

Variable E : Env.
Variables (deviceId : string) (device : Device) (smsBatch : SMSBatch).

(** A sub-message with a blank body, or with recipients that are absent,
    not an array or empty, is passed over: nothing is persisted, nothing
    is sent, the responses gathered so far are kept. *)
Lemma dispatchOne_skips (acc : list BatchResponse) (smsData : SendSMSInputDTO)
      (w : World) :
  skipped smsData = true ->
  dispatchOne E deviceId device smsBatch acc smsData w = (Ok acc, w).
Proof.
  unfold skipped, dispatchOne, truthyString.
  destruct (dto_message smsData) as [message|]; [|reflexivity].
  destruct (message =? ""); [reflexivity|].
  destruct (dto_recipients smsData) as [| |[|]]; try reflexivity.
  discriminate.
Qed.

(** One turn of the loop either adds the response it obtained, if any,
    and starts the matching counter increment, or stops at an insert the
    message collection refused.  An exception of the transport is not a
    way out of the turn. *)
Lemma dispatchOne_run (acc : list BatchResponse) (smsData : SendSMSInputDTO)
      (w w' : World) (r : Result (list BatchResponse)) :
  dispatchOne E deviceId device smsBatch acc smsData w = (r, w') ->
  devices w' = devices w
  /\ smsBatchCollection w' = smsBatchCollection w
  /\ notifications w' = notifications w
  /\ exists new,
      calls w' = (calls w ++ new)%list
      /\ ((r = Ok (acc ++ obtained new)%list
           /\ detached w'
              = (detached w ++ incrementsFor deviceId (obtained new))%list)
          \/ (exists c doc before,
                 r = Throw (Thrown c)
                 /\ smsCreateError E doc = Some c
                 /\ new = (before ++ [SmsCreate doc (Some c)])%list)).
Proof.
  intros H.
  destruct (skipped smsData) eqn:Hskip.
  - rewrite (dispatchOne_skips _ _ _ Hskip) in H. inv H.
    repeat split. exists []. rewrite !app_nil_r. split; [reflexivity|].
    left. split; reflexivity.
  - unfold dispatchOne in H. run_ops. run_cases H.
    all: inv H; try use_units; frame.
    all: try (unfold skipped, truthyString in Hskip;
              repeat match goal with
                     | H : dto_message _ = _ |- _ => rewrite H in Hskip
                     | H : dto_recipients _ = _ |- _ => rewrite H in Hskip
                     | H : (_ =? _) = _ |- _ => rewrite H in Hskip
                     end; discriminate).
    all: (split; [congruence|]); (split; [congruence|]);
      (split; [congruence|]).
    all: eexists; (split; [rewrite Hcalls; rewrite <- ?app_assoc;
                           reflexivity|]).
    all: destruct Hres as [(msgs & Hok & _ & _ & _ & Hob)|
                           (c' & doc & before & Hthrow & Hdoc & Hunits)];
      try discriminate.
    + left. rewrite obtained_app, Hob. unfold incrementsFor. cbn.
      rewrite !app_nil_r. split; congruence.
    + left. rewrite obtained_app, Hob. unfold incrementsFor. cbn.
      split; congruence.
    + right. inv Hthrow. now exists c', doc, before.
Qed.

Lemma dispatchEach_run (messages : list SendSMSInputDTO) :
  forall (acc : list BatchResponse) (w w' : World)
         (r : Result (list BatchResponse)),
    dispatchEach E deviceId device smsBatch acc messages w = (r, w') ->
    devices w' = devices w
    /\ smsBatchCollection w' = smsBatchCollection w
    /\ notifications w' = notifications w
    /\ exists new,
        calls w' = (calls w ++ new)%list
        /\ ((r = Ok (acc ++ obtained new)%list
             /\ detached w'
                = (detached w ++ incrementsFor deviceId (obtained new))%list)
            \/ (exists c doc before,
                   r = Throw (Thrown c)
                   /\ smsCreateError E doc = Some c
                   /\ new = (before ++ [SmsCreate doc (Some c)])%list)).
Proof.
  induction messages as [|smsData rest IH]; intros acc w w' r H.
  - inv H. repeat split. exists []. rewrite !app_nil_r.
    split; [reflexivity|]. left. split; reflexivity.
  - cbn [dispatchEach] in H. unfold bind in H.
    destruct (dispatchOne E deviceId device smsBatch acc smsData w)
      as [r1 w1] eqn:Hone.
    apply dispatchOne_run in Hone.
    destruct Hone as (Hd & Hb & Hn & new1 & Hcalls1 & Hres1).
    destruct Hres1 as [(-> & Hdet1)|(c & doc & before & -> & Hdoc & ->)].
    + apply IH in H.
      destruct H as (Hd' & Hb' & Hn' & new2 & Hcalls2 & Hres2).
      repeat split; try congruence.
      exists (new1 ++ new2)%list.
      split; [rewrite Hcalls2, Hcalls1, app_assoc; reflexivity|].
      destruct Hres2 as [(-> & Hdet2)|(c & doc & before & -> & Hdoc & ->)].
      * left. rewrite obtained_app. unfold incrementsFor in *.
        rewrite map_app, Hdet2, Hdet1, !app_assoc. split; reflexivity.
      * right. exists c, doc, (new1 ++ before)%list.
        rewrite app_assoc. repeat split. exact Hdoc.
    + inv H. repeat split; try assumption.
      eexists. split; [eassumption|]. right. now exists c, doc, before.
Qed.

(** Sub-messages that are passed over leave no trace: the loop over all
    sub-messages is the loop over those that are not passed over. *)
Lemma dispatchEach_skips (messages : list SendSMSInputDTO) :
  forall (acc : list BatchResponse) (w : World),
    dispatchEach E deviceId device smsBatch acc messages w
    = dispatchEach E deviceId device smsBatch acc
        (List.filter (fun m => negb (skipped m)) messages) w.
Proof.
  induction messages as [|smsData rest IH]; intros acc w; [reflexivity|].
  cbn [List.filter]. destruct (skipped smsData) eqn:Hskip; cbn [negb].
  - cbn [dispatchEach]. unfold bind.
    rewrite (dispatchOne_skips _ _ _ Hskip). apply IH.
  - cbn [dispatchEach]. unfold bind.
    destruct (dispatchOne E deviceId device smsBatch acc smsData w)
      as [[acc'|e] w1]; [apply IH | reflexivity].
Qed.

End BulkLoop.

Lemma flatRecipients_arrays (messages : list SendSMSInputDTO) :
  forallb (fun m => isArray (dto_recipients m)) messages = true ->
  List.length (flatRecipients messages)
  = List.list_sum (List.map arrayLength messages).
Proof.
  induction messages as [|m rest IH]; intros H; [reflexivity|].
  cbn [forallb] in H. apply andb_true_iff in H. destruct H as [Hm Hrest].
  unfold flatRecipients in *. cbn [List.flat_map List.map List.list_sum].
  rewrite length_app, (IH Hrest). f_equal.
  unfold arrayLength. destruct (dto_recipients m); try discriminate.
  now rewrite length_map.
Qed.

(** The lengths that go into [recipientCount] are there exactly when no
    sub-message lacks its [recipients]; the flattened list then has no
    absent item. *)
Lemma recipientLengths_present (messages : list SendSMSInputDTO) :
  recipientLengths messages <> None
  <-> forallb (fun m => match dto_recipients m with
                        | Absent => false
                        | _ => true
                        end) messages = true.
Proof.
  induction messages as [|m rest IH]; cbn [recipientLengths forallb].
  - split; [reflexivity | discriminate].
  - destruct (dto_recipients m); cbn [lengthOf andb];
      try (split; [intros H; now elim H | discriminate]);
      destruct (recipientLengths rest);
      rewrite <- IH; split; congruence.
Qed.

Section BulkSend.

Variable E : Env.

(** C6. On an enabled device, a bulk request whose recipients number
    more than 50 in total gets exactly one thing done: the billing
    service is asked, with that total.  If it refuses, its error is the
    result; if it agrees, the result is the recipient-limit error.  No
    batch record and no unit is created either way. *)
Theorem sendBulkSMS_recipient_limit (deviceId : string)
        (body : SendBulkSMSInputDTO) (w : World) (device : Device)
        (msgs : list SendSMSInputDTO) :
  List.find (fun d => dev_id d =? deviceId) (devices w) = Some device ->
  enabled device = true ->
  messages body = Some msgs ->
  50 < List.length (flatRecipients msgs) ->
  calls (snd (sendBulkSMS E deviceId body w))
  = (calls w
       ++ [CanPerformAction
             (dev_user device) bulk_send_sms
             (List.length (flatRecipients msgs))
             (canPerformAction E (dev_user device) bulk_send_sms
                (List.length (flatRecipients msgs)))])%list
  /\ smsBatchCollection (snd (sendBulkSMS E deviceId body w))
     = smsBatchCollection w
  /\ smsCollection (snd (sendBulkSMS E deviceId body w)) = smsCollection w
  /\ (forall c,
        canPerformAction E (dev_user device) bulk_send_sms
                         (List.length (flatRecipients msgs)) = Some c ->
        fst (sendBulkSMS E deviceId body w) = Throw (Thrown c))
  /\ (canPerformAction E (dev_user device) bulk_send_sms
                       (List.length (flatRecipients msgs)) = None ->
      fst (sendBulkSMS E deviceId body w) = Throw tooManyRecipients).
Proof.
  intros Hfind Hon Hmsgs Hmany.
  unfold sendBulkSMS. run_ops. rewrite Hfind, Hon, Hmsgs. cbn [negb].
  destruct (canPerformAction E (dev_user device) bulk_send_sms _) as [c|].
  - cbn [fst snd]. repeat split; intros; try discriminate. congruence.
  - assert (Hlen : (List.length msgs =? 0)%nat = false).
    { apply Nat.eqb_neq. intros Hz. apply length_zero_iff_nil in Hz.
      subst msgs. simpl in Hmany. lia. }
    assert (Htot : (List.length (flatRecipients msgs) =? 0)%nat = false)
      by (apply Nat.eqb_neq; lia).
    assert (Hcap : (50 <? List.length (flatRecipients msgs))%nat = true)
      by (apply Nat.ltb_lt; exact Hmany).
    rewrite Hlen, Htot, Hcap. cbn [orb fst snd].
    repeat split; intros; discriminate.
Qed.

(** What a bulk send that returns has returned: the responses it
    obtained from the transport, in order, their success and failure
    counts summed, and the success flag set exactly when the summed
    success count is positive.  One counter increment was started for
    each response obtained. *)
Lemma sendBulkSMS_returns (deviceId : string) (body : SendBulkSMSInputDTO)
      (w w' : World) (response : BulkResponse) (new : list Call) :
  sendBulkSMS E deviceId body w = (Ok response, w') ->
  calls w' = (calls w ++ new)%list ->
  fcmResponses response = obtained new
  /\ bulk_successCount response
     = sumZ (List.map successCount (obtained new))
  /\ bulk_failureCount response
     = sumZ (List.map failureCount (obtained new))
  /\ (bulk_success response = true <-> (0 < bulk_successCount response)%Z)
  /\ detached w'
     = (detached w ++ incrementsFor deviceId (obtained new))%list.
Proof.
  intros H Hnew. unfold sendBulkSMS in H. run_ops. run_cases H;
    try discriminate.
  inv H.
  match goal with
  | H : dispatchEach _ _ _ _ _ _ _ = _ |- _ =>
      apply dispatchEach_run in H;
      destruct H as (_ & _ & _ & new' & Hcalls & Hres)
  end.
  frame. rewrite Hcalls, <- !app_assoc in Hnew.
  apply app_inv_head in Hnew. subst new.
  destruct Hres as [(Hok & Hdet)|(c & doc & before & Hthrow & _)];
    [|discriminate].
  inv Hok. rewrite !obtained_app. cbn [obtained List.flat_map app].
  cbn [fcmResponses bulk_successCount bulk_failureCount bulk_success].
  rewrite sumSuccess_sumZ, sumFailure_sumZ.
  repeat split; try assumption; apply Z.ltb_lt.
Qed.

(** Every way a bulk send can throw.  What a collaborator raised comes
    from the billing service or from one of the two collections, never
    from the transport. *)
Lemma sendBulkSMS_throws (deviceId : string) (body : SendBulkSMSInputDTO)
      (w w' : World) (e : Exn) :
  sendBulkSMS E deviceId body w = (Throw e, w') ->
  e = deviceNotEnabled
      /\ (forall d,
            List.find (fun d => dev_id d =? deviceId) (devices w) = Some d ->
            enabled d = false)
  \/ exists d,
      List.find (fun d => dev_id d =? deviceId) (devices w) = Some d
      /\ enabled d = true
      /\ ((e = TypeError /\ messages body = None)
          \/ exists msgs,
              messages body = Some msgs
              /\ ((exists c,
                      e = Thrown c
                      /\ canPerformAction
                           E (dev_user d) bulk_send_sms
                           (List.length (flatRecipients msgs)) = Some c)
                  \/ (canPerformAction
                        E (dev_user d) bulk_send_sms
                        (List.length (flatRecipients msgs)) = None
                      /\ ((e = invalidMessageList
                           /\ (msgs = [] \/ flatRecipients msgs = []))
                          \/ (e = tooManyRecipients
                              /\ 50 < List.length (flatRecipients msgs))
                          \/ (msgs <> []
                              /\ 0 < List.length (flatRecipients msgs) <= 50
                              /\ ((e = TypeError
                                   /\ recipientLengths msgs = None)
                                  \/ (exists c doc,
                                         e = Thrown c
                                         /\ smsBatchCreateError E doc
                                            = Some c)
                                  \/ (exists c doc,
                                         e = Thrown c
                                         /\ smsCreateError E doc
                                            = Some c))))))).
Proof.
  intros H. unfold sendBulkSMS in H. run_ops. run_cases H;
    try discriminate.
  all: inv H.
  all: try match goal with
         | H : dispatchEach _ _ _ _ _ _ _ = _ |- _ =>
             apply dispatchEach_run in H;
             destruct H as (_ & _ & _ & new' & Hcalls & Hres);
             destruct Hres
               as [(Hok & _)|(c & doc & before & Hthrow & Hdoc & _)];
             [discriminate | inv Hthrow]
         end.
  all: try (left; split; [reflexivity|];
            intros d0 Hd0; try discriminate;
            assert (d0 = d) by congruence; subst d0;
            now apply negb_true_iff).
  all: right; exists d; split; [reflexivity|];
    (split; [now apply negb_false_iff|]).
  all: try (left; split; reflexivity).
  all: right; eexists; split; [reflexivity|].
  all: try (left; eexists; split; [reflexivity|assumption]).
  all: right; split; [assumption|].
  all: repeat match goal with
         | H : (_ || _)%bool = false |- _ =>
             apply orb_false_elim in H; destruct H
         | H : (_ || _)%bool = true |- _ => apply orb_true_iff in H
         | H : (_ =? _)%nat = false |- _ => apply Nat.eqb_neq in H
         | H : (_ =? _)%nat = true |- _ => apply Nat.eqb_eq in H
         | H : (_ <? _)%nat = true |- _ => apply Nat.ltb_lt in H
         | H : (_ <? _)%nat = false |- _ => apply Nat.ltb_ge in H
         end.
  - left. split; [reflexivity|].
    match goal with
    | H : _ \/ _ |- _ =>
        destruct H as [H|H]; apply Nat.eqb_eq in H;
        apply length_zero_iff_nil in H; auto
    end.
  - right; left. split; [reflexivity | assumption].
  - right; right.
    split; [intros ->; simpl in *; congruence|]. split; [lia|].
    right; left. eauto.
  - right; right.
    split; [intros ->; simpl in *; congruence|]. split; [lia|].
    right; right. eauto.
  - right; right.
    split; [intros ->; simpl in *; congruence|]. split; [lia|].
    left. split; [reflexivity | assumption].
Qed.

Lemma sendBulkSMS_device_check (deviceId : string)
      (body : SendBulkSMSInputDTO) (w : World) :
  fst (sendBulkSMS E deviceId body w) = Throw deviceNotEnabled
  <-> (forall d,
         List.find (fun d => dev_id d =? deviceId) (devices w) = Some d ->
         enabled d = false).
Proof.
  split.
  - destruct (sendBulkSMS E deviceId body w) as [[response|e] w'] eqn:Hrun;
      cbn [fst]; intros Heq; [discriminate|]. inv Heq.
    apply sendBulkSMS_throws in Hrun.
    destruct Hrun as [(_ & Hoff)|(d & _ & _ & Hother)]; [exact Hoff|].
    destruct Hother as [(He & _)|(msgs & _ & [(c & He & _)|(_ & Hother)])];
      try discriminate.
    destruct Hother as [(He & _)|[(He & _)|(_ & _ & Hother)]];
      try discriminate.
    destruct Hother as [(He & _)|[(c & doc & He & _)|(c & doc & He & _)]];
      discriminate.
  - intros Hoff. unfold sendBulkSMS. run_ops.
    destruct (List.find _ (devices w)) as [d|]; [|reflexivity].
    rewrite (Hoff d eq_refl). reflexivity.
Qed.

(** A bulk send past its checks goes through when every sub-message has
    a [recipients] value and the two collections accept every insert,
    whatever the transport does. *)
Lemma sendBulkSMS_goes_through (deviceId : string)
      (body : SendBulkSMSInputDTO) (w : World) (device : Device)
      (msgs : list SendSMSInputDTO) :
  List.find (fun d => dev_id d =? deviceId) (devices w) = Some device ->
  enabled device = true ->
  messages body = Some msgs ->
  canPerformAction E (dev_user device) bulk_send_sms
                   (List.length (flatRecipients msgs)) = None ->
  0 < List.length (flatRecipients msgs) <= 50 ->
  recipientLengths msgs <> None ->
  (forall doc, smsBatchCreateError E doc = None) ->
  (forall doc, smsCreateError E doc = None) ->
  exists response w',
    sendBulkSMS E deviceId body w = (Ok response, w').
Proof.
  intros Hfind Hon Hmsgs Hquota Htotal Hlens Hbatch Hsms.
  destruct (sendBulkSMS E deviceId body w) as [[response|e] w'] eqn:Hrun;
    [now exists response, w'|].
  exfalso. apply sendBulkSMS_throws in Hrun.
  destruct Hrun as [(_ & Hoff)|(d & Hd & _ & Hother)].
  - specialize (Hoff _ Hfind). congruence.
  - assert (d = device) by congruence. subst d.
    destruct Hother as [(_ & Hnone)|(msgs' & Hm & Hother)]; [congruence|].
    assert (msgs' = msgs) by congruence. subst msgs'.
    destruct Hother as [(c & _ & Hc)|(_ & Hother)]; [congruence|].
    destruct Hother as [(_ & [->|Hnil])|[(_ & Hmany)|(_ & _ & Hother)]].
    + simpl in Htotal. lia.
    + rewrite Hnil in Htotal. simpl in Htotal. lia.
    + lia.
    + destruct Hother
        as [(_ & Hnone)|[(c & doc & _ & Hc)|(c & doc & _ & Hc)]].
      * contradiction.
      * rewrite Hbatch in Hc. discriminate.
      * rewrite Hsms in Hc. discriminate.
Qed.

End BulkSend.

Lemma sendBulkSMS_recipient_limit_witness :
  let run := sendBulkSMS Sample.happy "d1" Sample.fiftyOne Sample.world in
  fst run = Throw tooManyRecipients
  /\ calls (snd run) = [CanPerformAction "u1" bulk_send_sms 51 None]
  /\ smsBatchCollection (snd run) = [].
Proof.
  cbv zeta.
  destruct (sendBulkSMS_recipient_limit
              Sample.happy "d1" Sample.fiftyOne Sample.world Sample.phone
              (List.repeat Sample.toOne 51) eq_refl eq_refl eq_refl)
    as (Hcalls & Hbatch & _ & _ & Hr).
  - vm_compute. lia.
  - split; [apply Hr; reflexivity|]. split; [exact Hcalls | exact Hbatch].
Defined.

(** C7, at a bulk request one of whose sub-messages names no recipients.
    The request is past the device, quota, message-list and limit checks
    (billing was asked about 2 recipients and agreed), the loop would
    pass that sub-message over, and yet the call throws: reading
    [length] of the absent [recipients] for the batch record's
    recipientCount raises a TypeError.  With an empty list in place of
    the absent one the same request goes through, and so it does without
    that sub-message. *)
Theorem sendBulkSMS_absent_recipients :
  let body := Sample.bulkOf [Sample.noRecipients; Sample.toOne] in
  let run := sendBulkSMS Sample.happy "d1" body Sample.world in
  skipped Sample.noRecipients = true
  /\ calls (snd run) = [CanPerformAction "u1" bulk_send_sms 2 None]
  /\ fst run = Throw TypeError
  /\ smsBatchCollection (snd run) = []
  /\ smsCollection (snd run) = []
  /\ skipped Sample.helloToNobody = true
  /\ (exists response,
         fst (sendBulkSMS Sample.happy "d1"
                (Sample.bulkOf [Sample.helloToNobody; Sample.toOne])
                Sample.world)
         = Ok response
         /\ bulk_success response = true
         /\ bulk_successCount response = 1%Z
         /\ bulk_failureCount response = 0%Z)
  /\ fst (sendBulkSMS Sample.happy "d1"
            (Sample.bulkOf [Sample.helloToNobody; Sample.toOne])
            Sample.world)
     = fst (sendBulkSMS Sample.happy "d1" (Sample.bulkOf [Sample.toOne])
              Sample.world).
Proof.
  cbv zeta. repeat split.
  eexists. repeat split.
Qed.

(** A transport exception for one sub-message leaves the others
    standing: here the transport raises for the first sub-message and
    delivers the second. *)
Example sendBulkSMS_flaky_transport :
  let body := Sample.bulkOf [Sample.toTwoAndFour; Sample.toOne] in
  let run := sendBulkSMS Sample.flaky "d1" body Sample.world in
  exists response,
    fst run = Ok response
    /\ fcmResponses response = obtained (calls (snd run))
    /\ List.length (List.filter isSendEach (calls (snd run))) = 2
    /\ List.length (fcmResponses response) = 1
    /\ bulk_success response = true
    /\ List.length (smsCollection (snd run)) = 3.
Proof.
  cbv zeta. eexists. repeat split.
Qed.

(** ** Device check, inbound against outbound *)

Lemma not_enabled_iff (deviceId : string) (w : World) :
  (forall d,
     List.find (fun d => dev_id d =? deviceId) (devices w) = Some d ->
     enabled d = false)
  <-> List.find (fun d => dev_id d =? deviceId) (devices w) = None
      \/ exists d,
          List.find (fun d => dev_id d =? deviceId) (devices w) = Some d
          /\ enabled d = false.
Proof.
  destruct (List.find _ (devices w)) as [d|].
  - split.
    + intros H. right. exists d. auto.
    + intros [H|(d' & Hd' & Hoff)] d0 Hd0; [discriminate | congruence].
  - split; [now left | intros _ d Hd; discriminate].
Qed.

Lemma receiveSMS_throws (E : Env) (deviceId : string) (dto : ReceivedSMSDTO)
      (w w' : World) (e : Exn) :
  receiveSMS E deviceId dto w = (Throw e, w') ->
  (e = deviceDoesNotExist
   /\ List.find (fun d => dev_id d =? deviceId) (devices w) = None)
  \/ (List.find (fun d => dev_id d =? deviceId) (devices w) <> None
      /\ (e = invalidReceivedData \/ exists c, e = Thrown c)).
Proof.
  intros H. unfold receiveSMS in H. run_ops. run_cases H;
    try discriminate.
  all: inv H.
  all: try (left; split; reflexivity).
  all: right; split; [discriminate|]; eauto.
Qed.

Lemma receiveSMS_accepts (E : Env) (deviceId : string) (dto : ReceivedSMSDTO)
      (w : World) (device : Device) (message sender : string) :
  List.find (fun d => dev_id d =? deviceId) (devices w) = Some device ->
  canPerformAction E (dev_user device) receive_sms 1 = None ->
  rcv_message dto = Some message -> message <> "" ->
  rcv_sender dto = Some sender -> sender <> "" ->
  rcv_receivedAt dto <> None
  \/ truthyNumber (rcv_receivedAtInMillis dto) = true ->
  smsCreateError E (receivedDoc device message sender (receivedAtOf dto))
  = None ->
  exists w',
    receiveSMS E deviceId dto w
    = (Ok (mkSMS (nextId w)
                 (receivedDoc device message sender (receivedAtOf dto))),
       w')
    /\ smsCollection w'
       = (smsCollection w
            ++ [mkSMS (nextId w)
                      (receivedDoc device message sender
                                   (receivedAtOf dto))])%list.
Proof.
  intros Hfind Hquota Hm Hmne Hs Hsne Hts Hcreate.
  unfold receiveSMS. run_ops. rewrite Hfind, Hquota, Hs, Hm.
  apply String.eqb_neq in Hmne, Hsne. rewrite Hmne, Hsne.
  assert (Hvalid :
            (match rcv_receivedAt dto with Some _ => false | None => true end
             && negb (truthyNumber (rcv_receivedAtInMillis dto)))%bool
            = false).
  { destruct Hts as [Hts|Hts].
    - destruct (rcv_receivedAt dto); [reflexivity | congruence].
    - rewrite Hts. apply andb_false_r. }
  rewrite Hvalid. cbn [orb]. rewrite Hcreate.
  eexists. split; reflexivity.
Qed.

(** C9. An inbound message is turned away as "device does not exist"
    exactly when no device has the id.  The enabled flag plays no part:
    a device that is found, enabled or not, gets its message recorded as
    soon as billing agrees, the message is well formed and the
    collection takes the insert.  The two outbound calls, by contrast,
    turn the request away exactly when no device has the id or the one
    that has it is disabled. *)
Theorem receiveSMS_device_check (E : Env) (deviceId : string) (w : World) :
  (forall dto,
     fst (receiveSMS E deviceId dto w) = Throw deviceDoesNotExist
     <-> List.find (fun d => dev_id d =? deviceId) (devices w) = None)
  /\ (forall dto device message sender,
        List.find (fun d => dev_id d =? deviceId) (devices w) = Some device ->
        enabled device = false ->
        canPerformAction E (dev_user device) receive_sms 1 = None ->
        rcv_message dto = Some message -> message <> "" ->
        rcv_sender dto = Some sender -> sender <> "" ->
        rcv_receivedAt dto <> None
        \/ truthyNumber (rcv_receivedAtInMillis dto) = true ->
        smsCreateError E (receivedDoc device message sender
                                      (receivedAtOf dto)) = None ->
        exists sms w',
          receiveSMS E deviceId dto w = (Ok sms, w')
          /\ In sms (smsCollection w')
          /\ sms_device (sms_doc sms) = dev_id device)
  /\ (forall smsData,
        fst (sendSMS E deviceId smsData w) = Throw deviceNotEnabled
        <-> List.find (fun d => dev_id d =? deviceId) (devices w) = None
            \/ exists d,
                List.find (fun d => dev_id d =? deviceId) (devices w)
                = Some d
                /\ enabled d = false)
  /\ (forall body,
        fst (sendBulkSMS E deviceId body w) = Throw deviceNotEnabled
        <-> List.find (fun d => dev_id d =? deviceId) (devices w) = None
            \/ exists d,
                List.find (fun d => dev_id d =? deviceId) (devices w)
                = Some d
                /\ enabled d = false).
Proof.
  repeat split.
  - destruct (receiveSMS E deviceId dto w) as [[sms|e] w'] eqn:Hrun;
      cbn [fst]; intros Heq; [discriminate|]. inv Heq.
    apply receiveSMS_throws in Hrun.
    destruct Hrun as [(_ & Hnone)|(_ & [He|(c & He)])];
      [exact Hnone | discriminate | discriminate].
  - intros Hnone. unfold receiveSMS. run_ops. rewrite Hnone. reflexivity.
  - intros dto device message sender Hfind _ Hquota Hm Hmne Hs Hsne Hts Hc.
    destruct (receiveSMS_accepts E deviceId dto w device message sender
                Hfind Hquota Hm Hmne Hs Hsne Hts Hc) as (w' & Hrun & Hcol).
    do 2 eexists. split; [exact Hrun|]. split; [|reflexivity].
    rewrite Hcol. apply in_or_app. right. now left.
  - intros H. apply not_enabled_iff.
    exact (proj1 (sendSMS_device_check E deviceId smsData w) H).
  - intros H. apply (proj2 (sendSMS_device_check E deviceId smsData w)).
    now apply not_enabled_iff.
  - intros H. apply not_enabled_iff.
    exact (proj1 (sendBulkSMS_device_check E deviceId body w) H).
  - intros H. apply (proj2 (sendBulkSMS_device_check E deviceId body w)).
    now apply not_enabled_iff.
Qed.

Lemma receiveSMS_device_check_witness :
  fst (receiveSMS Sample.happy "d9" Sample.millisOnly Sample.world)
  = Throw deviceDoesNotExist
  /\ (exists sms w',
         receiveSMS Sample.happy "d2" Sample.millisOnly Sample.world
         = (Ok sms, w')
         /\ In sms (smsCollection w')
         /\ sms_device (sms_doc sms) = "d2")
  /\ fst (sendSMS Sample.happy "d2" Sample.hello Sample.world)
     = Throw deviceNotEnabled.
Proof.
  split; [|split].
  - apply (proj1 (receiveSMS_device_check Sample.happy "d9" Sample.world)).
    reflexivity.
  - apply (proj1 (proj2 (receiveSMS_device_check
                           Sample.happy "d2" Sample.world))
             Sample.millisOnly Sample.offPhone "hi" "+15551234");
      try reflexivity; try discriminate.
    right. reflexivity.
  - apply (proj1 (proj2 (proj2 (receiveSMS_device_check
                                  Sample.happy "d2" Sample.world)))).
    right. exists Sample.offPhone. split; reflexivity.
Defined.

Lemma deleteDevice_soft_witness :
  runTimes 3 (deleteDevice "d1") Sample.world
  = ([Ok tt; Ok tt; Ok tt], Sample.world)
  /\ runTimes 2 (deleteDevice "d9") Sample.world
     = ([Throw deviceNotFound; Throw deviceNotFound], Sample.world).
Proof.
  split.
  - destruct (deleteDevice_soft "d1" Sample.world 3) as (r & Hrun & Hok & _).
    rewrite Hrun. replace r with (@Ok unit tt); [reflexivity|].
    symmetry. apply Hok. exists Sample.phone.
    split; [left; reflexivity | reflexivity].
  - destruct (deleteDevice_soft "d9" Sample.world 2) as (r & Hrun & _ & Hno).
    rewrite Hrun. replace r with (@Throw unit deviceNotFound); [reflexivity|].
    symmetry. apply Hno. intros (d & [Hd|[Hd|[]]] & Hid);
      subst d; discriminate.
Defined.
